(** * trim-branches: a shallow embedding of [BranchPruner] (src/index.js)

    The program is a sequence of awaited calls to simple-git and inquirer.
    Each library call is modelled as an oracle answer read from a record
    [gitEnv]; a call either resolves with a value ([Ok]) or rejects ([Err]).
    The program runs in a small state-and-exception monad [M] that records
    the library calls in a trace, propagates JavaScript exceptions
    ([Thrown]) and models [process.exit(code)] ([Exited code]), which no
    [catch] intercepts.  Console output is not modelled, except the
    per-branch display and the final summary, which are recorded as events. *)

From Stdlib Require Import List String Ascii ZArith Lia Bool.
Import ListNotations.
Open Scope string_scope.
Open Scope list_scope.

(** ** JavaScript string primitives (on 8-bit strings) *)

Module JS.

(** [s.startsWith(p)] *)
Definition startsWith (s p : string) : bool := String.prefix p s.

(** [s.includes(p)]: [p] occurs at some position of [s]. *)
Fixpoint includes (s p : string) : bool :=
  String.prefix p s ||
  match s with
  | EmptyString => false
  | String _ s' => includes s' p
  end.

(** [s.endsWith(p)]: start = len(s) - len(p); false when negative;
    otherwise compare the tail of [s] with [p]. *)
Definition endsWith (s p : string) : bool :=
  (String.length p <=? String.length s)%nat &&
  String.eqb (substring (String.length s - String.length p) (String.length p) s) p.

(** [s.replace(p, r)] with a string pattern: only the first occurrence. *)
Fixpoint replace (s p r : string) : string :=
  if String.prefix p s then (r ++ substring (String.length p) (String.length s) s)%string
  else match s with
       | EmptyString => EmptyString
       | String c s' => String c (replace s' p r)
       end.

(** White space removed by [String.prototype.trim] (its ASCII members). *)
Definition isWhiteSpace (c : ascii) : bool :=
  let n := nat_of_ascii c in
  ((9 <=? n) && (n <=? 13))%nat || (n =? 32)%nat.

Fixpoint dropWhile (f : ascii -> bool) (l : list ascii) : list ascii :=
  match l with
  | [] => []
  | c :: l' => if f c then dropWhile f l' else l
  end.

(** [s.trim()] *)
Definition trim (s : string) : string :=
  string_of_list_ascii
    (rev (dropWhile isWhiteSpace (rev (dropWhile isWhiteSpace (list_ascii_of_string s))))).

(** A JavaScript number as the code uses it: an integer or [NaN]. *)
Definition number := option Z.
Definition NaN : number := None.

Definition sub (a b : number) : number :=
  match a, b with Some x, Some y => Some (x - y)%Z | _, _ => NaN end.

(** [Math.floor(a / d)] for an integer [a] and a positive integer [d]. *)
Definition floorDiv (a : number) (d : Z) : number :=
  match a with Some x => Some (x / d)%Z | None => NaN end.

(** [a === b] and [a < b] against an integer literal: false on [NaN]. *)
Definition eqN (a : number) (b : Z) : bool :=
  match a with Some x => Z.eqb x b | None => false end.
Definition ltN (a : number) (b : Z) : bool :=
  match a with Some x => Z.ltb x b | None => false end.

Definition digit (n : nat) : ascii := ascii_of_nat (48 + n).

Fixpoint natDigits (fuel n : nat) (acc : string) : string :=
  match fuel with
  | O => acc
  | S fuel' =>
      let acc' := String (digit (n mod 10)) acc in
      if (n <? 10)%nat then acc' else natDigits fuel' (n / 10) acc'
  end.

(** Template-literal conversion [`${n}`] of a number. *)
Definition toString (a : number) : string :=
  match a with
  | None => "NaN"
  | Some z =>
      let s := natDigits (S (Z.to_nat (Z.abs z))) (Z.to_nat (Z.abs z)) "" in
      if (z <? 0)%Z then ("-" ++ s)%string else s
  end.

End JS.

(** ** The environment: answers of simple-git, inquirer and the clock *)

Inductive resp (A : Type) : Type :=
| Ok (a : A)
| Err.
Arguments Ok {A} a.
Arguments Err {A}.

(** [log.latest] of [git.log]: the fields the code reads. *)
Record commit := mkCommit {
  c_hash : string;
  c_message : string;
  c_author_name : string;
  c_date : string
}.

Record gitEnv := mkEnv {
  checkIsRepo_r : resp bool;                  (* git.checkIsRepo() *)
  fetch_r : resp unit;                        (* git.fetch('origin', --prune) *)
  branch_r : resp (list string);              (* git.branch(['-r']).all, before deletion *)
  merged_r : resp (list string);              (* git.branch(['-r','--merged',..]).all *)
  log_r : string -> resp (option commit);     (* git.log({from: origin/b}).latest *)
  push_r : string -> resp unit;               (* git.push('origin', b, --delete) *)
  prompt_input : option bool;                 (* answer typed at the prompt; None: empty *)
  prune_r : resp unit;                        (* git.remote(['prune','origin']) *)
  branch_after_r : resp (list string);        (* git.branch(['-r']).all, after deletion *)
  date_parse : string -> option Z;            (* new Date(s) in ms; None: Invalid Date *)
  now_ms : Z                                  (* new Date() in ms *)
}.

(** Observable events: library calls and what the run reports. *)
Inductive event :=
| EvCheckIsRepo
| EvFetch
| EvBranchList
| EvMergedQuery
| EvLog (branch : string)
| EvShow (branch hash message author relativeDate : string)
| EvPrompt (default : bool)
| EvPush (branch : string)
| EvPrune
| EvBranchListAfter
| EvSummary (deleted failed : nat) (remaining : option nat).

(** ** The monad: trace, exceptions and [process.exit] *)

Inductive res (A : Type) : Type :=
| Done (a : A)
| Thrown
| Exited (code : Z).
Arguments Done {A} a.
Arguments Thrown {A}.
Arguments Exited {A} code.

Definition M (A : Type) : Type := list event -> res A * list event.

Definition ret {A} (a : A) : M A := fun tr => (Done a, tr).

Definition bind {A B} (m : M A) (k : A -> M B) : M B :=
  fun tr =>
    match m tr with
    | (Done a, tr') => k a tr'
    | (Thrown, tr') => (Thrown, tr')
    | (Exited c, tr') => (Exited c, tr')
    end.

Notation "x <- m ;; k" := (bind m (fun x => k))
  (at level 61, m at next level, right associativity).
Notation "m ;;; k" := (bind m (fun _ => k))
  (at level 61, right associativity).

Definition throw {A} : M A := fun tr => (Thrown, tr).

(** [process.exit(code)]: ends the process; no [catch] sees it. *)
Definition exit {A} (code : Z) : M A := fun tr => (Exited code, tr).

Definition emit (e : event) : M unit := fun tr => (Done tt, tr ++ [e]).

(** [try { m } catch (error) { h }] *)
Definition tryCatch {A} (m : M A) (h : M A) : M A :=
  fun tr =>
    match m tr with
    | (Thrown, tr') => h tr'
    | r => r
    end.

(** An awaited library call: recorded, then resolved or rejected. *)
Definition call {A} (e : event) (r : resp A) : M A :=
  fun tr =>
    match r with
    | Ok a => (Done a, tr ++ [e])
    | Err => (Thrown, tr ++ [e])
    end.

(** ** BranchPruner *)

Record BranchPruner := mkPruner {
  mainBranch : string;
  dryRun : bool;
  force : bool;
  keepDevelop : bool
}.

Record branchInfo := mkInfo {
  hash : string;
  message : string;
  author : string;
  date : string
}.

Section Pruner.

Variable self : BranchPruner.
Variable env : gitEnv.

Definition checkGitRepository : M unit :=
  tryCatch (_ <- call EvCheckIsRepo (checkIsRepo_r env) ;; ret tt)
           (exit 1).

Definition fetchLatest : M unit :=
  tryCatch (call EvFetch (fetch_r env)) throw.

Definition checkMainBranch : M unit :=
  tryCatch
    (branches <- call EvBranchList (branch_r env) ;;
     let mainBranchRef := ("origin/" ++ mainBranch self)%string in
     if negb (existsb (String.eqb mainBranchRef) branches)
     then exit 1
     else ret tt)
    throw.

(** The [for ... of mergedBranches] loop of [getMergedBranches]. *)
Fixpoint keepFilter (mergedBranches : list string) : list string :=
  match mergedBranches with
  | [] => []
  | branch :: rest =>
      if String.eqb branch (mainBranch self) then keepFilter rest
      else if keepDevelop self && String.eqb branch "develop" then keepFilter rest
      else if String.eqb branch "HEAD" then keepFilter rest
      else branch :: keepFilter rest
  end.

(** The [filter]/[filter]/[map] chain of [getMergedBranches]. *)
Definition mergedFilter (all : list string) : list string :=
  keepFilter
    (map (fun branch => JS.trim (JS.replace branch "origin/" ""))
       (filter (fun branch => negb (JS.endsWith branch ("origin/" ++ mainBranch self)))
          (filter (fun branch => negb (JS.includes branch " -> ")) all))).

Definition getMergedBranches : M (list string) :=
  tryCatch
    (result <- call EvMergedQuery (merged_r env) ;;
     ret (mergedFilter result))
    throw.

Definition unknownInfo : branchInfo := mkInfo "unknown" "unknown" "unknown" "unknown".

Definition getBranchInfo (branch : string) : M branchInfo :=
  tryCatch
    (log <- call (EvLog branch) (log_r env branch) ;;
     match log with
     | Some latest =>
         ret (mkInfo (substring 0 7 (c_hash latest)) (c_message latest)
                     (c_author_name latest) (c_date latest))
     | None => ret unknownInfo
     end)
    (ret unknownInfo).

(** [getRelativeDate]: [new Date(dateString)] never throws on a string,
    it yields an Invalid Date whose time value is [NaN]. *)
Definition getRelativeDate (dateString : string) : string :=
  let date : JS.number := date_parse env dateString in
  let now : JS.number := Some (now_ms env) in
  let diffMs := JS.sub now date in
  let diffDays := JS.floorDiv diffMs (1000 * 60 * 60 * 24) in
  if JS.eqN diffDays 0 then "today"
  else if JS.eqN diffDays 1 then "yesterday"
  else if JS.ltN diffDays 7 then (JS.toString diffDays ++ " days ago")%string
  else if JS.ltN diffDays 30 then (JS.toString (JS.floorDiv diffDays 7) ++ " weeks ago")%string
  else if JS.ltN diffDays 365 then (JS.toString (JS.floorDiv diffDays 30) ++ " months ago")%string
  else (JS.toString (JS.floorDiv diffDays 365) ++ " years ago")%string.

Fixpoint displayBranches (branches : list string) : M unit :=
  match branches with
  | [] => ret tt
  | branch :: rest =>
      info <- getBranchInfo branch ;;
      let relativeDate := getRelativeDate (date info) in
      emit (EvShow branch (hash info) (message info) (author info) relativeDate) ;;;
      displayBranches rest
  end.

(** inquirer's [confirm] question: an empty answer takes the default. *)
Definition promptConfirm (default : bool) : M bool :=
  emit (EvPrompt default) ;;;
  ret (match prompt_input env with Some b => b | None => default end).

Definition confirmDeletion (branches : list string) : M bool :=
  if force self then ret true
  else promptConfirm false.

Fixpoint deleteLoop (branches : list string) (deletedCount failedCount : nat)
  : M (nat * nat) :=
  match branches with
  | [] => ret (deletedCount, failedCount)
  | branch :: rest =>
      ok <- tryCatch (call (EvPush branch) (push_r env branch) ;;; ret true)
                     (ret false) ;;
      if ok then deleteLoop rest (S deletedCount) failedCount
      else deleteLoop rest deletedCount (S failedCount)
  end.

Definition deleteBranches (branches : list string) : M (nat * nat) :=
  deleteLoop branches 0 0.

Definition cleanupLocal : M unit :=
  tryCatch (call EvPrune (prune_r env)) (ret tt).

Definition getRemainingBranchCount : M (option nat) :=
  tryCatch
    (branches <- call EvBranchListAfter (branch_after_r env) ;;
     ret (Some (List.length (filter (fun branch => negb (JS.includes branch " -> ")) branches))))
    (ret None).

(** The part of [run] after [getMergedBranches] has returned. *)
Definition afterMerged (branches : list string) : M unit :=
  match branches with
  | [] => ret tt
  | _ :: _ =>
      displayBranches branches ;;;
      if dryRun self then ret tt
      else
        confirmed <- confirmDeletion branches ;;
        if negb confirmed then ret tt
        else
          counts <- deleteBranches branches ;;
          cleanupLocal ;;;
          remainingCount <- getRemainingBranchCount ;;
          emit (EvSummary (fst counts) (snd counts) remainingCount)
  end.

Definition runBody : M unit :=
  checkGitRepository ;;;
  fetchLatest ;;;
  checkMainBranch ;;;
  branches <- getMergedBranches ;;
  afterMerged branches.

Definition run : M unit := tryCatch runBody (exit 1).

End Pruner.

(** The exit status of the node process after [pruner.run()]. *)
Definition exitCode (r : res unit) : Z :=
  match r with
  | Done _ => 0
  | Exited c => c
  | Thrown => 1
  end.

Definition runProgram (self : BranchPruner) (env : gitEnv) : Z * list event :=
  let (r, tr) := run self env [] in (exitCode r, tr).

(** ** Observations on traces, used to state the properties *)

(** Branches whose commit was looked up. *)
Definition loggedBranches (tr : list event) : list string :=
  flat_map (fun e => match e with EvLog b => [b] | _ => [] end) tr.

(** Calls that change something or wait for the user. *)
Definition isMutation (e : event) : bool :=
  match e with
  | EvPrompt _ | EvPush _ | EvPrune => true
  | _ => false
  end.

(** Events of [displayBranches]. *)
Definition isDisplay (e : event) : bool :=
  match e with
  | EvLog _ | EvShow _ _ _ _ _ => true
  | _ => false
  end.

Definition prompts (tr : list event) : list bool :=
  flat_map (fun e => match e with EvPrompt d => [d] | _ => [] end) tr.

Definition pushedBranches (tr : list event) : list string :=
  flat_map (fun e => match e with EvPush b => [b] | _ => [] end) tr.

Definition shownBranches (tr : list event) : list string :=
  flat_map (fun e => match e with EvShow b _ _ _ _ => [b] | _ => [] end) tr.

Definition pushOk (env : gitEnv) (b : string) : bool :=
  match push_r env b with Ok _ => true | Err => false end.

(** The run gets past the repository check, the fetch and the main-branch
    check, and [getMergedBranches] computes [cands]. *)
Definition reachesCandidates (self : BranchPruner) (env : gitEnv) (cands : list string) : Prop :=
  (exists isRepo, checkIsRepo_r env = Ok isRepo) /\
  fetch_r env = Ok tt /\
  (exists l, branch_r env = Ok l /\ In ("origin/" ++ mainBranch self)%string l) /\
  (exists all, merged_r env = Ok all /\ mergedFilter self all = cands).

(** Every computation only appends to the trace. *)
Definition Extends {A} (m : M A) : Prop :=
  forall tr, exists ext, snd (m tr) = tr ++ ext.

(** Every [process.exit] a computation reaches has status 1. *)
Definition ExitsOnly1 {A} (m : M A) : Prop :=
  forall tr c tr', m tr = (Exited c, tr') -> c = 1%Z.

(** The number [getRemainingBranchCount] reports for a listing. *)
Definition remainingOf (env : gitEnv) : option nat :=
  match branch_after_r env with
  | Ok l => Some (List.length (filter (fun branch => negb (JS.includes branch " -> ")) l))
  | Err => None
  end.

(** ** Sample inputs *)

Definition samplePruner (keepDev : bool) : BranchPruner := mkPruner "main" false false keepDev.

Definition sampleMerged : list string :=
  ["origin/HEAD -> origin/main"; "origin/main"; "origin/develop"; "origin/feat";
   "origin/foo/origin/main"; "origin/fix"].

(** A repository where [feat] cannot be deleted and [fix] has no log. *)
Definition sampleEnvWith (merged : list string) : gitEnv := {|
  checkIsRepo_r := Ok true;
  fetch_r := Ok tt;
  branch_r := Ok ["origin/HEAD -> origin/main"; "origin/main"; "origin/develop";
                  "origin/feat"; "origin/fix"];
  merged_r := Ok merged;
  log_r := fun b => if String.eqb b "feat"
                    then Ok (Some (mkCommit "3f2a9c41d0e7" "Add feature" "Ana" "2024-01-01"))
                    else Err;
  push_r := fun b => if String.eqb b "feat" then Err else Ok tt;
  prompt_input := None;
  prune_r := Ok tt;
  branch_after_r := Ok ["origin/HEAD -> origin/main"; "origin/main"; "origin/feat"];
  date_parse := fun s => if String.eqb s "2024-01-01" then Some 1704067200000%Z else None;
  now_ms := 1739577600000%Z
|}.

Definition sampleEnv : gitEnv := sampleEnvWith sampleMerged.

(** A directory outside any repository: simple-git's [checkIsRepo]
    resolves to [false] there, and every git command fails. *)
Definition notRepoEnv : gitEnv := {|
  checkIsRepo_r := Ok false;
  fetch_r := Err;
  branch_r := Err;
  merged_r := Err;
  log_r := fun _ => Err;
  push_r := fun _ => Err;
  prompt_input := None;
  prune_r := Err;
  branch_after_r := Err;
  date_parse := fun _ => None;
  now_ms := 1739577600000%Z
|}.

(** A repository whose clock is three days behind the commit dates. *)
Definition skewedClockEnv : gitEnv :=
  {| checkIsRepo_r := Ok true; fetch_r := Ok tt; branch_r := Err;
     merged_r := Err; log_r := fun _ => Err; push_r := fun _ => Err;
     prompt_input := None; prune_r := Err; branch_after_r := Err;
     date_parse := fun s => if String.eqb s "2025-02-18" then Some 1739836800000%Z else None;
     now_ms := 1739577600000%Z |}.

(** The calls made before the candidates are known. *)
Definition baseTrace : list event := [EvCheckIsRepo; EvFetch; EvBranchList; EvMergedQuery].

(** ** Generic facts about the monad *)

Lemma bind_done {A B} (m : M A) (k : A -> M B) tr a tr' :
  m tr = (Done a, tr') -> bind m k tr = k a tr'.
Proof. intros H. unfold bind. now rewrite H. Qed.

Lemma bind_emit {B} e (k : unit -> M B) tr :
  bind (emit e) k tr = k tt (tr ++ [e]).
Proof. reflexivity. Qed.

Lemma ext_ret {A} (a : A) : Extends (ret a).
Proof. intros tr. exists []. now rewrite app_nil_r. Qed.

Lemma ext_throw {A} : Extends (@throw A).
Proof. intros tr. exists []. now rewrite app_nil_r. Qed.

Lemma ext_exit {A} c : Extends (@exit A c).
Proof. intros tr. exists []. now rewrite app_nil_r. Qed.

Lemma ext_emit e : Extends (emit e).
Proof. intros tr. now exists [e]. Qed.

Lemma ext_call {A} e (r : resp A) : Extends (call e r).
Proof. intros tr. exists [e]. now destruct r. Qed.

Lemma ext_bind {A B} (m : M A) (k : A -> M B) :
  Extends m -> (forall a, Extends (k a)) -> Extends (bind m k).
Proof.
  intros Hm Hk tr. unfold bind. destruct (Hm tr) as [e1 H1].
  destruct (m tr) as [[a| |c] tr'] eqn:E; simpl in H1; subst.
  - destruct (Hk a (tr ++ e1)) as [e2 H2]. exists (e1 ++ e2).
    now rewrite H2, app_assoc.
  - now exists e1.
  - now exists e1.
Qed.

Lemma ext_tryCatch {A} (m h : M A) :
  Extends m -> Extends h -> Extends (tryCatch m h).
Proof.
  intros Hm Hh tr. unfold tryCatch. destruct (Hm tr) as [e1 H1].
  destruct (m tr) as [[a| |c] tr'] eqn:E; simpl in H1; subst.
  - now exists e1.
  - destruct (Hh (tr ++ e1)) as [e2 H2]. exists (e1 ++ e2).
    now rewrite H2, app_assoc.
  - now exists e1.
Qed.

Create HintDb extends.
#[local] Hint Resolve ext_ret ext_throw ext_exit ext_emit ext_call : extends.

Ltac extends_step :=
  match goal with
  | |- Extends (bind _ _) => apply ext_bind; [|intros ?]
  | |- Extends (tryCatch _ _) => apply ext_tryCatch
  | |- Extends (if ?b then _ else _) => destruct b
  | |- Extends (match ?x with _ => _ end) => destruct x
  | |- Extends (let _ := _ in _) => cbv zeta
  | |- _ => solve [auto with extends]
  end.

Lemma deleteLoop_extends env bs d f : Extends (deleteLoop env bs d f).
Proof.
  revert d f. induction bs as [|b bs IH]; intros d f; simpl.
  - apply ext_ret.
  - repeat extends_step; apply IH.
Qed.

Lemma getBranchInfo_extends env b : Extends (getBranchInfo env b).
Proof. unfold getBranchInfo. repeat extends_step. Qed.

#[local] Hint Resolve getBranchInfo_extends : extends.

Lemma displayBranches_extends env bs : Extends (displayBranches env bs).
Proof.
  induction bs as [|b bs IH]; simpl.
  - apply ext_ret.
  - repeat extends_step; apply IH.
Qed.

#[local] Hint Resolve deleteLoop_extends displayBranches_extends : extends.

Lemma afterMerged_extends self env bs : Extends (afterMerged self env bs).
Proof.
  unfold afterMerged, confirmDeletion, promptConfirm, deleteBranches,
    cleanupLocal, getRemainingBranchCount.
  repeat extends_step.
Qed.

Lemma run_extends self env : Extends (run self env).
Proof.
  unfold run, runBody, checkGitRepository, fetchLatest, checkMainBranch,
    getMergedBranches.
  repeat extends_step. apply afterMerged_extends.
Qed.

(** ** Steps of [run] *)

Lemma checkGitRepository_resolved env isRepo tr :
  checkIsRepo_r env = Ok isRepo ->
  checkGitRepository env tr = (Done tt, tr ++ [EvCheckIsRepo]).
Proof. intros H. unfold checkGitRepository, tryCatch, bind, call. now rewrite H. Qed.

Lemma fetchLatest_ok env tr :
  fetch_r env = Ok tt -> fetchLatest env tr = (Done tt, tr ++ [EvFetch]).
Proof. intros H. unfold fetchLatest, tryCatch, call. now rewrite H. Qed.

Lemma existsb_eqb_In x l : In x l -> existsb (String.eqb x) l = true.
Proof.
  intros H. apply existsb_exists. exists x. split; [exact H|].
  apply String.eqb_refl.
Qed.

Lemma checkMainBranch_ok self env l tr :
  branch_r env = Ok l -> In ("origin/" ++ mainBranch self)%string l ->
  checkMainBranch self env tr = (Done tt, tr ++ [EvBranchList]).
Proof.
  intros H Hin. unfold checkMainBranch, tryCatch, bind, call. rewrite H.
  cbv beta iota zeta. now rewrite (existsb_eqb_In _ _ Hin).
Qed.

Lemma getMergedBranches_ok self env all tr :
  merged_r env = Ok all ->
  getMergedBranches self env tr = (Done (mergedFilter self all), tr ++ [EvMergedQuery]).
Proof. intros H. unfold getMergedBranches, tryCatch, bind, call. now rewrite H. Qed.

Lemma getMergedBranches_inv self env tr cands tr' :
  getMergedBranches self env tr = (Done cands, tr') ->
  exists all, merged_r env = Ok all /\ cands = mergedFilter self all.
Proof.
  unfold getMergedBranches, tryCatch, bind, call.
  destruct (merged_r env) as [all|]; intros H; [|discriminate].
  exists all. split; [reflexivity|]. now inversion H.
Qed.

Lemma getBranchInfo_done env b tr :
  exists info, getBranchInfo env b tr = (Done info, tr ++ [EvLog b]).
Proof.
  unfold getBranchInfo, tryCatch, bind, call.
  destruct (log_r env b) as [[c|]|]; eexists; reflexivity.
Qed.

Lemma displayBranches_done env bs tr :
  exists evs, displayBranches env bs tr = (Done tt, tr ++ evs) /\
              forallb isDisplay evs = true /\
              shownBranches evs = bs.
Proof.
  revert tr. induction bs as [|b bs IH]; intros tr; simpl.
  - exists []. now rewrite app_nil_r.
  - destruct (getBranchInfo_done env b tr) as [info Hi].
    rewrite (bind_done _ _ _ _ _ Hi). cbv beta zeta. rewrite bind_emit.
    destruct (IH ((tr ++ [EvLog b]) ++ [EvShow b (hash info) (message info)
                   (author info) (getRelativeDate env (date info))]))
      as [evs [He [Hm Hs]]].
    eexists. rewrite He. split; [now rewrite <- !app_assoc|].
    simpl. rewrite Hm, Hs. split; reflexivity.
Qed.

Lemma deleteLoop_counts env bs d f tr :
  deleteLoop env bs d f tr =
  (Done (d + List.length (filter (pushOk env) bs),
         f + List.length (filter (fun b => negb (pushOk env b)) bs)),
   tr ++ map EvPush bs).
Proof.
  revert d f tr. induction bs as [|b bs IH]; intros d f tr; simpl.
  - now rewrite !Nat.add_0_r, app_nil_r.
  - cbv [bind tryCatch call ret].
    destruct (push_r env b) eqn:E;
      [assert (Hp : pushOk env b = true) by (unfold pushOk; now rewrite E)
      |assert (Hp : pushOk env b = false) by (unfold pushOk; now rewrite E)];
      rewrite Hp; simpl; rewrite IH, <- app_assoc; simpl;
      rewrite ?Nat.add_succ_r; reflexivity.
Qed.

(** ** The candidate filter *)

Lemma keepFilter_In self x l :
  In x (keepFilter self l) ->
  In x l /\ x <> mainBranch self /\ x <> "HEAD" /\
  (keepDevelop self = true -> x <> "develop").
Proof.
  induction l as [|b l IH]; simpl; [tauto|].
  destruct (String.eqb_spec b (mainBranch self)) as [Hm|Hm].
  { intros H. destruct (IH H) as (? & ? & ? & ?). tauto. }
  destruct (keepDevelop self) eqn:Hk; destruct (String.eqb_spec b "develop") as [Hd|Hd];
    simpl;
    try (intros H; destruct (IH H) as (? & ? & ? & ?); tauto);
    destruct (String.eqb_spec b "HEAD") as [Hh|Hh];
    try (intros H; destruct (IH H) as (? & ? & ? & ?); tauto);
    intros [<- | H]; try (destruct (IH H) as (? & ? & ? & ?); tauto);
    repeat split; auto; congruence.
Qed.

Lemma keepFilter_keeps self x l :
  In x l -> x <> mainBranch self -> keepDevelop self = false -> x <> "HEAD" ->
  In x (keepFilter self l).
Proof.
  intros Hin Hm Hk Hh. induction l as [|b l IH]; simpl in *; [contradiction|].
  rewrite Hk. simpl.
  destruct Hin as [<- | Hin].
  - apply String.eqb_neq in Hm, Hh. rewrite Hm, Hh. now left.
  - destruct (String.eqb b (mainBranch self)); [now apply IH|].
    destruct (String.eqb b "HEAD"); [now apply IH|]. right. now apply IH.
Qed.

(** ["origin/develop"] ends with ["origin/" ++ m] only for [m = "develop"]. *)
Lemma endsWith_origin_develop m :
  JS.endsWith "origin/develop" ("origin/" ++ m) = true -> m = "develop".
Proof.
  unfold JS.endsWith. intros H. apply andb_true_iff in H as [Hl He].
  apply Nat.leb_le in Hl. apply String.eqb_eq in He. simpl in Hl, He.
  remember (String.length m) as n eqn:En.
  assert (Hn : (n <= 7)%nat) by lia. clear Hl.
  do 7 (destruct n as [|n]; [simpl in He; discriminate He|]).
  destruct n as [|n]; [|lia].
  simpl in He. now inversion He.
Qed.

Lemma mergedFilter_app_drop self l1 r l2 :
  JS.endsWith r ("origin/" ++ mainBranch self) = true ->
  mergedFilter self (l1 ++ r :: l2) = mergedFilter self (l1 ++ l2).
Proof.
  intros H. unfold mergedFilter. rewrite !filter_app. cbn [filter].
  destruct (negb (JS.includes r " -> ")); cbn [filter]; [|reflexivity].
  now rewrite H.
Qed.

(** ** Whole runs *)

Lemma runBody_reaches self env cands :
  reachesCandidates self env cands ->
  runBody self env [] = afterMerged self env cands baseTrace.
Proof.
  intros [[isRepo Hr] [Hf [[l [Hb Hin]] [all [Hm <-]]]]].
  unfold runBody.
  rewrite (bind_done _ _ _ _ _ (checkGitRepository_resolved env isRepo [] Hr)).
  rewrite (bind_done _ _ _ _ _ (fetchLatest_ok env _ Hf)).
  rewrite (bind_done _ _ _ _ _ (checkMainBranch_ok self env l _ Hb Hin)).
  rewrite (bind_done _ _ _ _ _ (getMergedBranches_ok self env all _ Hm)).
  reflexivity.
Qed.

Lemma runProgram_reaches self env cands :
  reachesCandidates self env cands ->
  runProgram self env =
    (let (r, tr) := tryCatch (afterMerged self env cands) (exit 1) baseTrace
     in (exitCode r, tr)).
Proof.
  intros H. unfold runProgram, run, tryCatch. now rewrite (runBody_reaches _ _ _ H).
Qed.

Lemma run_trace self env tr : snd (run self env tr) = snd (runBody self env tr).
Proof. unfold run, tryCatch. now destruct (runBody self env tr) as [[] ?]. Qed.

Lemma fetchLatest_trace env tr : exists r, fetchLatest env tr = (r, tr ++ [EvFetch]).
Proof. unfold fetchLatest, tryCatch, call. destruct (fetch_r env); eexists; reflexivity. Qed.

Lemma cleanupLocal_trace env tr : cleanupLocal env tr = (Done tt, tr ++ [EvPrune]).
Proof. unfold cleanupLocal, tryCatch, call. now destruct (prune_r env) as [[]|]. Qed.

Lemma getRemainingBranchCount_trace env tr :
  exists n, getRemainingBranchCount env tr = (Done n, tr ++ [EvBranchListAfter]).
Proof.
  unfold getRemainingBranchCount, tryCatch, bind, call.
  destruct (branch_after_r env); eexists; reflexivity.
Qed.

(** After a positive confirmation: the deletion phase, cleanup and summary. *)
Lemma deletionPhase_trace env bs tr :
  exists d f n,
    (counts <- deleteBranches env bs ;;
     cleanupLocal env ;;;
     remainingCount <- getRemainingBranchCount env ;;
     emit (EvSummary (fst counts) (snd counts) remainingCount)) tr =
    (Done tt, tr ++ map EvPush bs ++ [EvPrune; EvBranchListAfter; EvSummary d f n]).
Proof.
  unfold deleteBranches. rewrite (bind_done _ _ _ _ _ (deleteLoop_counts env bs 0 0 tr)).
  cbv beta. rewrite (bind_done _ _ _ _ _ (cleanupLocal_trace env _)).
  destruct (getRemainingBranchCount_trace env ((tr ++ map EvPush bs) ++ [EvPrune])) as [n Hn].
  rewrite (bind_done _ _ _ _ _ Hn). cbv beta. unfold emit.
  do 3 eexists. now rewrite <- !app_assoc.
Qed.

Lemma display_events_quiet evs :
  forallb isDisplay evs = true -> prompts evs = [] /\ pushedBranches evs = [].
Proof.
  induction evs as [|e evs IH]; simpl; [auto|].
  intros H. apply andb_true_iff in H as [He H].
  destruct e; try discriminate He; apply IH, H.
Qed.

Lemma prompts_app l1 l2 : prompts (l1 ++ l2) = prompts l1 ++ prompts l2.
Proof. apply flat_map_app. Qed.

Lemma pushedBranches_app l1 l2 :
  pushedBranches (l1 ++ l2) = pushedBranches l1 ++ pushedBranches l2.
Proof. apply flat_map_app. Qed.

Lemma prompts_pushes bs : prompts (map EvPush bs) = [].
Proof. induction bs; simpl; auto. Qed.

Lemma pushedBranches_pushes bs : pushedBranches (map EvPush bs) = bs.
Proof. induction bs; simpl; f_equal; auto. Qed.

Lemma promptConfirm_trace env dflt tr :
  promptConfirm env dflt tr =
    (Done (match prompt_input env with Some b => b | None => dflt end),
     tr ++ [EvPrompt dflt]).
Proof. reflexivity. Qed.

(** A rejected repository check ends the process with status 1 at once. *)
Lemma checkIsRepo_rejected_aborts self env :
  checkIsRepo_r env = Err -> runProgram self env = (1%Z, [EvCheckIsRepo]).
Proof.
  intros H. unfold runProgram, run, runBody, checkGitRepository, tryCatch, bind, call.
  now rewrite H.
Qed.

(** For a parseable date: the text for each range of elapsed whole days. *)
Lemma getRelativeDate_days env s t :
  date_parse env s = Some t ->
  let days := ((now_ms env - t) / 86400000)%Z in
  (days = 0%Z -> getRelativeDate env s = "today") /\
  (days = 1%Z -> getRelativeDate env s = "yesterday") /\
  ((2 <= days < 7)%Z ->
     getRelativeDate env s = (JS.toString (Some days) ++ " days ago")%string) /\
  ((7 <= days < 30)%Z ->
     getRelativeDate env s = (JS.toString (Some (days / 7)%Z) ++ " weeks ago")%string) /\
  ((30 <= days < 365)%Z ->
     getRelativeDate env s = (JS.toString (Some (days / 30)%Z) ++ " months ago")%string) /\
  ((365 <= days)%Z ->
     getRelativeDate env s = (JS.toString (Some (days / 365)%Z) ++ " years ago")%string).
Proof.
  intros H days. unfold getRelativeDate. rewrite H.
  change (JS.floorDiv (JS.sub (Some (now_ms env)) (Some t)) (1000 * 60 * 60 * 24)%Z)
    with (@Some Z days).
  cbn [JS.eqN JS.ltN JS.floorDiv].
  repeat split; intros Hd;
    repeat match goal with
      | |- context [Z.eqb ?a ?b] => destruct (Z.eqb_spec a b); [try lia|]
      | |- context [Z.ltb ?a ?b] => destruct (Z.ltb_spec a b); [try lia|]
      end; try lia; subst; reflexivity.
Qed.

(** * Properties of the specification *)

(** C1: whatever the merged-branch query returns, the candidates of
    [getMergedBranches] never contain the main branch nor ["HEAD"], and
    never ["develop"] when [keepDevelop] is set. *)
Theorem getMergedBranches_excludes_protected self env tr cands tr' :
  getMergedBranches self env tr = (Done cands, tr') ->
  ~ In (mainBranch self) cands /\ ~ In "HEAD" cands /\
  (keepDevelop self = true -> ~ In "develop" cands).
Proof.
  intros H. destruct (getMergedBranches_inv _ _ _ _ _ H) as [all [_ ->]].
  unfold mergedFilter.
  split; [|split; [|intros Hk]]; intros Hin; apply keepFilter_In in Hin;
    destruct Hin as (_ & Hm & Hh & Hd); tauto.
Qed.

Lemma getMergedBranches_excludes_protected_witness :
  ~ In "main" ["feat"; "fix"] /\ ~ In "HEAD" ["feat"; "fix"] /\
  (keepDevelop (samplePruner true) = true -> ~ In "develop" ["feat"; "fix"]).
Proof.
  apply (getMergedBranches_excludes_protected (samplePruner true) sampleEnv []
           ["feat"; "fix"] [EvMergedQuery]).
  vm_compute. reflexivity.
Defined.

(** C2: [deleteBranches] pushes a delete for every candidate, in order,
    whatever fails; it counts successes and failures.  With three
    candidates of which the second fails: two deleted, one failed, three
    delete calls. *)
Theorem deleteBranches_attempts_every_candidate env bs tr :
  deleteBranches env bs tr =
    (Done (List.length (filter (pushOk env) bs),
           List.length (filter (fun b => negb (pushOk env b)) bs)),
     tr ++ map EvPush bs) /\
  (forall b1 b2 b3,
     pushOk env b1 = true -> pushOk env b2 = false -> pushOk env b3 = true ->
     deleteBranches env [b1; b2; b3] tr =
       (Done (2, 1), tr ++ [EvPush b1; EvPush b2; EvPush b3])%nat).
Proof.
  split.
  - apply deleteLoop_counts.
  - intros b1 b2 b3 H1 H2 H3. unfold deleteBranches.
    rewrite deleteLoop_counts. simpl. now rewrite H1, H2, H3.
Qed.

Lemma deleteBranches_attempts_every_candidate_witness :
  deleteBranches sampleEnv ["fix"; "feat"; "docs"] [] =
    (Done (2, 1), [EvPush "fix"; EvPush "feat"; EvPush "docs"])%nat.
Proof.
  exact (proj2 (deleteBranches_attempts_every_candidate sampleEnv [] [])
           "fix" "feat" "docs" eq_refl eq_refl eq_refl).
Defined.

(** C7: when the commit lookup rejects or finds no commit, [getBranchInfo]
    resolves (it does not throw) with ["unknown"] in all four fields. *)
Theorem getBranchInfo_lookup_failure env b tr :
  log_r env b = Err \/ log_r env b = Ok None ->
  getBranchInfo env b tr =
    (Done (mkInfo "unknown" "unknown" "unknown" "unknown"), tr ++ [EvLog b]).
Proof.
  intros [H | H]; unfold getBranchInfo, tryCatch, bind, call; now rewrite H.
Qed.

Lemma getBranchInfo_lookup_failure_witness :
  getBranchInfo sampleEnv "fix" [] =
    (Done (mkInfo "unknown" "unknown" "unknown" "unknown"), [EvLog "fix"]).
Proof.
  apply (getBranchInfo_lookup_failure sampleEnv "fix" []). left. reflexivity.
Defined.

(** C8: with [keepDevelop] off and a main branch other than ["develop"],
    a merged ["origin/develop"] yields the candidate ["develop"]. *)
Theorem getMergedBranches_includes_develop self env tr all cands tr' :
  keepDevelop self = false -> mainBranch self <> "develop" ->
  merged_r env = Ok all -> In "origin/develop" all ->
  getMergedBranches self env tr = (Done cands, tr') ->
  In "develop" cands.
Proof.
  intros Hk Hm Hall Hin H. rewrite (getMergedBranches_ok self env all tr Hall) in H.
  inversion H; subst cands. unfold mergedFilter.
  apply keepFilter_keeps; [| congruence | exact Hk | discriminate].
  change "develop" with (JS.trim (JS.replace "origin/develop" "origin/" "")).
  apply (in_map (fun branch => JS.trim (JS.replace branch "origin/" ""))).
  apply filter_In. split.
  - apply filter_In. split; [exact Hin | reflexivity].
  - destruct (JS.endsWith "origin/develop" ("origin/" ++ mainBranch self)) eqn:E;
      [|reflexivity].
    apply endsWith_origin_develop in E. contradiction.
Qed.

Lemma getMergedBranches_includes_develop_witness :
  In "develop" ["develop"; "feat"; "fix"].
Proof.
  apply (getMergedBranches_includes_develop (samplePruner false) sampleEnv []
           sampleMerged ["develop"; "feat"; "fix"] [EvMergedQuery]);
    try reflexivity.
  - discriminate.
  - vm_compute. tauto.
Defined.

(** C9: the two counts of [deleteBranches] add up to the number of
    candidates (both are natural numbers). *)
Theorem deleteBranches_counts_sum env bs tr d f tr' :
  deleteBranches env bs tr = (Done (d, f), tr') ->
  (d + f = List.length bs)%nat.
Proof.
  unfold deleteBranches. rewrite deleteLoop_counts. intros H. inversion H.
  apply filter_length.
Qed.

Lemma deleteBranches_counts_sum_witness : (2 + 1 = List.length ["fix"; "feat"; "docs"])%nat.
Proof.
  apply (deleteBranches_counts_sum sampleEnv ["fix"; "feat"; "docs"] [] 2 1
           [EvPush "fix"; EvPush "feat"; EvPush "docs"]).
  reflexivity.
Defined.

(** C10: a merged ref whose text ends with ["origin/" ++ mainBranch] is
    dropped before any candidate is derived from it, also when its branch
    is not the main branch (["origin/foo/origin/main"]). *)
Theorem getMergedBranches_drops_ref_ending_in_main self env env' l1 r l2 tr :
  merged_r env = Ok (l1 ++ r :: l2) -> merged_r env' = Ok (l1 ++ l2) ->
  JS.endsWith r ("origin/" ++ mainBranch self) = true ->
  getMergedBranches self env tr = getMergedBranches self env' tr.
Proof.
  intros H1 H2 He.
  rewrite (getMergedBranches_ok _ _ _ _ H1), (getMergedBranches_ok _ _ _ _ H2).
  now rewrite mergedFilter_app_drop.
Qed.

Lemma getMergedBranches_drops_ref_ending_in_main_witness :
  getMergedBranches (samplePruner true) sampleEnv [] =
  getMergedBranches (samplePruner true)
    (sampleEnvWith ["origin/HEAD -> origin/main"; "origin/main"; "origin/develop";
                    "origin/feat"; "origin/fix"]) [] /\
  getMergedBranches (samplePruner true) sampleEnv [] =
    (Done ["feat"; "fix"], [EvMergedQuery]).
Proof.
  split; [|vm_compute; reflexivity].
  apply (getMergedBranches_drops_ref_ending_in_main (samplePruner true) sampleEnv
           _ ["origin/HEAD -> origin/main"; "origin/main"; "origin/develop"; "origin/feat"]
           "origin/foo/origin/main" ["origin/fix"] []); reflexivity.
Defined.

Ltac enter_after_display Hr He :=
  rewrite (runProgram_reaches _ _ _ Hr);
  unfold tryCatch, afterMerged; cbv beta iota;
  rewrite (bind_done _ _ _ _ _ He); cbv beta.

(** C3: in a dry run that finds candidates, the run ends right after the
    candidates are displayed, with status 0: no prompt, no delete, no prune,
    no summary. *)
Theorem dryRun_stops_after_display self env cands :
  dryRun self = true -> cands <> [] -> reachesCandidates self env cands ->
  exists evs, runProgram self env = (0%Z, baseTrace ++ evs) /\
              forallb isDisplay evs = true /\ shownBranches evs = cands.
Proof.
  intros Hd Hne Hr. destruct cands as [|c cs]; [congruence|].
  destruct (displayBranches_done env (c :: cs) baseTrace) as [evs [He [Hq Hs]]].
  exists evs. enter_after_display Hr He. rewrite Hd. auto.
Qed.

Lemma dryRun_stops_after_display_witness :
  exists evs, runProgram (mkPruner "main" true false true) sampleEnv = (0%Z, baseTrace ++ evs) /\
              forallb isDisplay evs = true /\ shownBranches evs = ["feat"; "fix"].
Proof.
  apply dryRun_stops_after_display; [reflexivity | discriminate |].
  split; [eexists; reflexivity|]. split; [reflexivity|].
  split; [eexists; split; [reflexivity | simpl; tauto]|].
  eexists; split; reflexivity.
Defined.

(** C4, as stated, also covers dry runs; a dry run with candidates and
    [force = false] never reaches the prompt. *)
Lemma confirmation_gate_dry_run_counterexample :
  force (mkPruner "main" true false true) = false /\
  reachesCandidates (mkPruner "main" true false true) sampleEnv ["feat"; "fix"] /\
  prompts (snd (runProgram (mkPruner "main" true false true) sampleEnv)) = [].
Proof.
  split; [reflexivity|]. split; [|vm_compute; reflexivity].
  split; [eexists; reflexivity|]. split; [reflexivity|].
  split; [eexists; split; [reflexivity | simpl; tauto]|].
  eexists; split; reflexivity.
Qed.

(** C4 (amended to runs that are not dry runs): with candidates and
    [force = false] the run asks one yes/no question whose default is no;
    an answer other than yes (an empty answer included) ends the run right
    there with status 0 and no delete.  With [force = true] no question is
    asked and every candidate is pushed for deletion. *)
Theorem confirmation_gate self env cands :
  dryRun self = false -> cands <> [] -> reachesCandidates self env cands ->
  (force self = false ->
     prompts (snd (runProgram self env)) = [false] /\
     (prompt_input env <> Some true ->
        exists evs, forallb isDisplay evs = true /\
          runProgram self env = (0%Z, baseTrace ++ evs ++ [EvPrompt false]))) /\
  (force self = true ->
     prompts (snd (runProgram self env)) = [] /\
     pushedBranches (snd (runProgram self env)) = cands).
Proof.
  intros Hd Hne Hr. destruct cands as [|c cs]; [congruence|].
  destruct (displayBranches_done env (c :: cs) baseTrace) as [evs [He [Hq Hs]]].
  destruct (display_events_quiet evs Hq) as [Hpq Hpp].
  split; intros Hf.
  - enter_after_display Hr He. rewrite Hd. cbv iota.
    unfold confirmDeletion. rewrite Hf.
    rewrite (bind_done _ _ _ _ _ (promptConfirm_trace env false _)). cbv beta.
    destruct (prompt_input env) as [[|]|] eqn:Hp; cbn [negb].
    + destruct (deletionPhase_trace env (c :: cs) ((baseTrace ++ evs) ++ [EvPrompt false]))
        as (d & f & n & Hx).
      rewrite Hx. cbv beta iota zeta. cbn [snd]. rewrite !prompts_app, Hpq, prompts_pushes. split; [reflexivity|].
      congruence.
    + split.
      * cbv beta iota zeta delta [ret]. cbn [snd]. rewrite !prompts_app, Hpq. reflexivity.
      * intros _. exists evs. split; [exact Hq|]. now rewrite <- app_assoc.
    + split.
      * cbv beta iota zeta delta [ret]. cbn [snd]. rewrite !prompts_app, Hpq. reflexivity.
      * intros _. exists evs. split; [exact Hq|]. now rewrite <- app_assoc.
  - enter_after_display Hr He. rewrite Hd. cbv iota.
    unfold confirmDeletion. rewrite Hf.
    rewrite (bind_done _ _ _ _ _ (eq_refl : ret true (baseTrace ++ evs) = _)). cbv beta iota.
    cbn [negb].
    destruct (deletionPhase_trace env (c :: cs) (baseTrace ++ evs)) as (d & f & n & Hx).
    rewrite Hx. cbv beta iota zeta. cbn [snd].
    rewrite !prompts_app, !pushedBranches_app, Hpq, Hpp, prompts_pushes, pushedBranches_pushes.
    simpl. rewrite app_nil_r. split; reflexivity.
Qed.

Lemma confirmation_gate_witness :
  prompts (snd (runProgram (mkPruner "main" false false true) sampleEnv)) = [false] /\
  (prompt_input sampleEnv <> Some true ->
     exists evs, forallb isDisplay evs = true /\
       runProgram (mkPruner "main" false false true) sampleEnv =
         (0%Z, baseTrace ++ evs ++ [EvPrompt false])).
Proof.
  apply (confirmation_gate (mkPruner "main" false false true) sampleEnv ["feat"; "fix"]);
    [reflexivity | discriminate | | reflexivity].
  split; [eexists; reflexivity|]. split; [reflexivity|].
  split; [eexists; split; [reflexivity | simpl; tauto]|].
  eexists; split; reflexivity.
Defined.

(** C5: an unparseable date does not give ["unknown"]: [new Date(s)] does
    not throw, the [catch] never runs, and the [NaN] day count falls through
    every comparison to the last line. *)
Theorem getRelativeDate_unparseable env s :
  date_parse env s = None -> getRelativeDate env s = "NaN years ago".
Proof. intros H. unfold getRelativeDate. now rewrite H. Qed.

Lemma getRelativeDate_unparseable_witness :
  getRelativeDate sampleEnv "unknown" = "NaN years ago".
Proof. apply getRelativeDate_unparseable. reflexivity. Defined.

(** C6: when [checkIsRepo] reports [false] (outside a repository), the run
    does not stop: the next call, the fetch, is made. *)
Theorem checkIsRepo_false_continues self env :
  checkIsRepo_r env = Ok false ->
  exists rest, snd (runProgram self env) = EvCheckIsRepo :: EvFetch :: rest.
Proof.
  intros H. unfold runProgram.
  pose proof (run_trace self env []) as Ht.
  destruct (run self env []) as [r tr]. simpl in Ht |- *. rewrite Ht.
  unfold runBody.
  rewrite (bind_done _ _ _ _ _ (checkGitRepository_resolved env false [] H)). cbv beta.
  destruct (fetchLatest_trace env ([] ++ [EvCheckIsRepo])) as [[u| |c] Hf].
  - rewrite (bind_done _ _ _ _ _ Hf). cbv beta.
    assert (Hx : Extends (checkMainBranch self env ;;;
                          branches <- getMergedBranches self env ;;
                          afterMerged self env branches)).
    { unfold checkMainBranch, getMergedBranches. repeat extends_step.
      apply afterMerged_extends. }
    destruct (Hx (([] ++ [EvCheckIsRepo]) ++ [EvFetch])) as [ext He].
    rewrite He. now exists ext.
  - unfold bind at 1. rewrite Hf. now exists [].
  - unfold bind at 1. rewrite Hf. now exists [].
Qed.

Lemma checkIsRepo_false_continues_witness :
  (exists rest, snd (runProgram (samplePruner true) notRepoEnv) = EvCheckIsRepo :: EvFetch :: rest) /\
  runProgram (samplePruner true) notRepoEnv = (1%Z, [EvCheckIsRepo; EvFetch]).
Proof.
  split; [apply checkIsRepo_false_continues; reflexivity | vm_compute; reflexivity].
Defined.

(** * Further properties of the code *)

(** ** Exit statuses *)

Lemma ex1_ret {A} (a : A) : ExitsOnly1 (ret a).
Proof. intros tr c tr' H. discriminate H. Qed.

Lemma ex1_throw {A} : ExitsOnly1 (@throw A).
Proof. intros tr c tr' H. discriminate H. Qed.

Lemma ex1_exit {A} : ExitsOnly1 (@exit A 1%Z).
Proof. intros tr c tr' H. now inversion H. Qed.

Lemma ex1_emit e : ExitsOnly1 (emit e).
Proof. intros tr c tr' H. discriminate H. Qed.

Lemma ex1_call {A} e (r : resp A) : ExitsOnly1 (call e r).
Proof. intros tr c tr' H. unfold call in H. destruct r; discriminate H. Qed.

Lemma ex1_bind {A B} (m : M A) (k : A -> M B) :
  ExitsOnly1 m -> (forall a, ExitsOnly1 (k a)) -> ExitsOnly1 (bind m k).
Proof.
  intros Hm Hk tr c tr' H. unfold bind in H.
  destruct (m tr) as [[a| |c0] t] eqn:E.
  - exact (Hk a t c tr' H).
  - discriminate H.
  - injection H as <- <-. exact (Hm tr c0 t E).
Qed.

Lemma ex1_tryCatch {A} (m h : M A) :
  ExitsOnly1 m -> ExitsOnly1 h -> ExitsOnly1 (tryCatch m h).
Proof.
  intros Hm Hh tr c tr' H. unfold tryCatch in H.
  destruct (m tr) as [[a| |c0] t] eqn:E.
  - discriminate H.
  - exact (Hh t c tr' H).
  - injection H as <- <-. exact (Hm tr c0 t E).
Qed.

Create HintDb exits.
#[local] Hint Resolve ex1_ret ex1_throw ex1_exit ex1_emit ex1_call : exits.

Ltac exits_step :=
  match goal with
  | |- ExitsOnly1 (bind _ _) => apply ex1_bind; [|intros ?]
  | |- ExitsOnly1 (tryCatch _ _) => apply ex1_tryCatch
  | |- ExitsOnly1 (if ?b then _ else _) => destruct b
  | |- ExitsOnly1 (match ?x with _ => _ end) => destruct x
  | |- ExitsOnly1 (let _ := _ in _) => cbv zeta
  | |- _ => solve [auto with exits]
  end.

Lemma deleteLoop_exits env bs d f : ExitsOnly1 (deleteLoop env bs d f).
Proof.
  revert d f. induction bs as [|b bs IH]; intros d f; simpl.
  - apply ex1_ret.
  - repeat exits_step; apply IH.
Qed.

Lemma getBranchInfo_exits env b : ExitsOnly1 (getBranchInfo env b).
Proof. unfold getBranchInfo. repeat exits_step. Qed.

#[local] Hint Resolve getBranchInfo_exits : exits.

Lemma displayBranches_exits env bs : ExitsOnly1 (displayBranches env bs).
Proof.
  induction bs as [|b bs IH]; simpl.
  - apply ex1_ret.
  - repeat exits_step; apply IH.
Qed.

#[local] Hint Resolve deleteLoop_exits displayBranches_exits : exits.

Lemma afterMerged_exits self env bs : ExitsOnly1 (afterMerged self env bs).
Proof.
  unfold afterMerged, confirmDeletion, promptConfirm, deleteBranches,
    cleanupLocal, getRemainingBranchCount.
  repeat exits_step.
Qed.

Lemma run_exits self env : ExitsOnly1 (run self env).
Proof.
  unfold run, runBody, checkGitRepository, fetchLatest, checkMainBranch,
    getMergedBranches.
  repeat exits_step. apply afterMerged_exits.
Qed.

(** X1: the process always ends with status 0 or 1: every abort goes
    through [process.exit(1)], and [run] catches whatever is thrown. *)
Theorem runProgram_exit_status self env :
  fst (runProgram self env) = 0%Z \/ fst (runProgram self env) = 1%Z.
Proof.
  unfold runProgram. destruct (run self env []) as [[u| |c] tr] eqn:E; simpl.
  - now left.
  - now right.
  - right. exact (run_exits self env [] c tr E).
Qed.

(** ** Early ends of [run] *)

(** X2: a failing fetch ends the process with status 1 right after it:
    no branch is listed, queried or deleted. *)
Theorem fetch_failure_aborts self env isRepo :
  checkIsRepo_r env = Ok isRepo -> fetch_r env = Err ->
  runProgram self env = (1%Z, [EvCheckIsRepo; EvFetch]).
Proof.
  intros Hr Hf. unfold runProgram, run, runBody, tryCatch at 1.
  rewrite (bind_done _ _ _ _ _ (checkGitRepository_resolved env isRepo [] Hr)).
  unfold bind at 1, fetchLatest, tryCatch, call. now rewrite Hf.
Qed.

Lemma fetch_failure_aborts_witness :
  runProgram (samplePruner true) notRepoEnv = (1%Z, [EvCheckIsRepo; EvFetch]).
Proof. apply (fetch_failure_aborts _ _ false); reflexivity. Defined.

(** X3: when [origin/<mainBranch>] is not in the remote listing (or the
    listing fails), the process ends with status 1 after the listing,
    before the merged-branch query. *)
Theorem missing_main_branch_aborts self env isRepo :
  checkIsRepo_r env = Ok isRepo -> fetch_r env = Ok tt ->
  (branch_r env = Err \/
   exists l, branch_r env = Ok l /\ ~ In ("origin/" ++ mainBranch self)%string l) ->
  runProgram self env = (1%Z, [EvCheckIsRepo; EvFetch; EvBranchList]).
Proof.
  intros Hr Hf Hb. unfold runProgram, run, runBody.
  unfold tryCatch at 1.
  rewrite (bind_done _ _ _ _ _ (checkGitRepository_resolved env isRepo [] Hr)).
  rewrite (bind_done _ _ _ _ _ (fetchLatest_ok env _ Hf)).
  unfold bind at 1, checkMainBranch, tryCatch at 1, bind at 1, call.
  destruct Hb as [Hb | [l [Hb Hn]]]; rewrite Hb; [reflexivity|].
  cbv beta iota zeta.
  replace (existsb (String.eqb ("origin/" ++ mainBranch self)) l) with false;
    [reflexivity|].
  symmetry. apply not_true_is_false. intros He.
  apply existsb_exists in He as [x [Hx Heq]]. apply String.eqb_eq in Heq.
  subst x. contradiction.
Qed.

Lemma missing_main_branch_aborts_witness :
  runProgram (mkPruner "master" false false true) sampleEnv =
    (1%Z, [EvCheckIsRepo; EvFetch; EvBranchList]).
Proof.
  apply (missing_main_branch_aborts _ _ true); try reflexivity.
  right. eexists. split; [reflexivity|]. simpl. intuition discriminate.
Defined.

(** X4: when the checks pass, a failing merged-branch query ends the
    process with status 1, and an empty candidate list ends it with
    status 0; in both cases nothing is displayed, asked or deleted. *)
Theorem merged_query_failure_or_empty self env isRepo l :
  checkIsRepo_r env = Ok isRepo -> fetch_r env = Ok tt ->
  branch_r env = Ok l -> In ("origin/" ++ mainBranch self)%string l ->
  (merged_r env = Err -> runProgram self env = (1%Z, baseTrace)) /\
  (forall all, merged_r env = Ok all -> mergedFilter self all = [] ->
     runProgram self env = (0%Z, baseTrace)).
Proof.
  intros Hr Hf Hb Hin. split.
  - intros Hm. unfold runProgram, run, runBody. unfold tryCatch at 1.
    rewrite (bind_done _ _ _ _ _ (checkGitRepository_resolved env isRepo [] Hr)).
    rewrite (bind_done _ _ _ _ _ (fetchLatest_ok env _ Hf)).
    rewrite (bind_done _ _ _ _ _ (checkMainBranch_ok self env l _ Hb Hin)).
    unfold bind at 1, getMergedBranches, tryCatch, bind, call. now rewrite Hm.
  - intros all Hm He.
    assert (Hreach : reachesCandidates self env []).
    { split; [eexists; exact Hr|]. split; [exact Hf|].
      split; [exists l; split; assumption|]. exists all; split; assumption. }
    rewrite (runProgram_reaches _ _ _ Hreach). reflexivity.
Qed.

Lemma merged_query_failure_or_empty_witness :
  (merged_r (sampleEnvWith ["origin/main"]) = Err ->
     runProgram (samplePruner true) (sampleEnvWith ["origin/main"]) = (1%Z, baseTrace)) /\
  (forall all, merged_r (sampleEnvWith ["origin/main"]) = Ok all ->
     mergedFilter (samplePruner true) all = [] ->
     runProgram (samplePruner true) (sampleEnvWith ["origin/main"]) = (0%Z, baseTrace)).
Proof.
  apply (merged_query_failure_or_empty _ _ true
           ["origin/HEAD -> origin/main"; "origin/main"; "origin/develop";
            "origin/feat"; "origin/fix"]); try reflexivity.
  simpl. tauto.
Defined.

Lemma keepFilter_In_iff self x l :
  In x (keepFilter self l) <->
  In x l /\ x <> mainBranch self /\ x <> "HEAD" /\
  (keepDevelop self = true -> x <> "develop").
Proof.
  split; [apply keepFilter_In|].
  intros (Hin & Hm & Hh & Hd). induction l as [|b l IH]; simpl in *; [contradiction|].
  destruct Hin as [<- | Hin].
  - apply String.eqb_neq in Hm, Hh. rewrite Hm, Hh.
    destruct (keepDevelop self) eqn:Hk; simpl; [|now left].
    apply String.eqb_neq in Hd; [|reflexivity]. rewrite Hd. now left.
  - destruct (String.eqb b (mainBranch self)); [now apply IH|].
    destruct (keepDevelop self && String.eqb b "develop"); [now apply IH|].
    destruct (String.eqb b "HEAD"); [now apply IH|]. right. now apply IH.
Qed.

(** X5: a candidate of [getMergedBranches] is exactly the branch name
    (first ["origin/"] removed, trimmed) of a merged ref that is not a
    symbolic ref and does not end with ["origin/" ++ mainBranch], provided
    that name is not the main branch, not ["HEAD"], and not ["develop"]
    when [keepDevelop] is set. *)
Theorem getMergedBranches_candidates self env tr all cands tr' b :
  merged_r env = Ok all ->
  getMergedBranches self env tr = (Done cands, tr') ->
  (In b cands <->
   (exists ref, In ref all /\ JS.includes ref " -> " = false /\
      JS.endsWith ref ("origin/" ++ mainBranch self) = false /\
      b = JS.trim (JS.replace ref "origin/" "")) /\
   b <> mainBranch self /\ b <> "HEAD" /\
   (keepDevelop self = true -> b <> "develop")).
Proof.
  intros Hm H. rewrite (getMergedBranches_ok self env all tr Hm) in H.
  inversion H; subst cands. unfold mergedFilter. rewrite keepFilter_In_iff.
  rewrite in_map_iff.
  split.
  - intros ([ref [Href Hin]] & Hrest). split; [|exact Hrest].
    apply filter_In in Hin as [Hin He]. apply filter_In in Hin as [Hin Hi].
    exists ref. apply negb_true_iff in He, Hi. auto.
  - intros ([ref (Hin & Hi & He & ->)] & Hrest). split; [|exact Hrest].
    exists ref. split; [reflexivity|].
    apply filter_In. split; [apply filter_In; split; [exact Hin|]|];
      apply negb_true_iff; assumption.
Qed.

Lemma getMergedBranches_candidates_witness :
  In "feat" ["feat"; "fix"] <->
  (exists ref, In ref sampleMerged /\ JS.includes ref " -> " = false /\
     JS.endsWith ref ("origin/" ++ "main") = false /\
     "feat" = JS.trim (JS.replace ref "origin/" "")) /\
  "feat" <> "main" /\ "feat" <> "HEAD" /\ (true = true -> "feat" <> "develop").
Proof.
  exact (getMergedBranches_candidates (samplePruner true) sampleEnv [] sampleMerged
           ["feat"; "fix"] [EvMergedQuery] "feat" eq_refl eq_refl).
Defined.

Lemma mergedFilter_app_drop_symbolic self l1 r l2 :
  JS.includes r " -> " = true ->
  mergedFilter self (l1 ++ r :: l2) = mergedFilter self (l1 ++ l2).
Proof.
  intros H. unfold mergedFilter. rewrite !filter_app. cbn [filter].
  now rewrite H.
Qed.

(** X6: a symbolic ref (one containing [" -> "], such as
    ["origin/HEAD -> origin/main"]) contributes no candidate: removing it
    from the query result does not change what [getMergedBranches]
    returns. *)
Theorem getMergedBranches_drops_symbolic_ref self env env' l1 r l2 tr :
  merged_r env = Ok (l1 ++ r :: l2) -> merged_r env' = Ok (l1 ++ l2) ->
  JS.includes r " -> " = true ->
  getMergedBranches self env tr = getMergedBranches self env' tr.
Proof.
  intros H1 H2 Hs.
  rewrite (getMergedBranches_ok _ _ _ _ H1), (getMergedBranches_ok _ _ _ _ H2).
  now rewrite mergedFilter_app_drop_symbolic.
Qed.

Lemma getMergedBranches_drops_symbolic_ref_witness :
  getMergedBranches (samplePruner true) sampleEnv [] =
  getMergedBranches (samplePruner true) (sampleEnvWith (List.tl sampleMerged)) [].
Proof.
  apply (getMergedBranches_drops_symbolic_ref (samplePruner true) _ _ []
           "origin/HEAD -> origin/main" (List.tl sampleMerged) []); reflexivity.
Defined.

Lemma substring_0_length n s :
  String.length (substring 0 n s) = Nat.min n (String.length s).
Proof.
  revert n. induction s as [|c s IH]; intros [|n]; simpl; auto.
Qed.

Lemma substring_0_prefix n s : String.prefix (substring 0 n s) s = true.
Proof.
  revert n. induction s as [|c s IH]; intros [|n]; simpl; auto.
  destruct (ascii_dec c c); [apply IH | contradiction].
Qed.

(** X7: when the lookup finds a commit, [getBranchInfo] shows the first
    seven characters of its hash (all of it if shorter) and copies the
    message, author name and date unchanged. *)
Theorem getBranchInfo_found env b tr c :
  log_r env b = Ok (Some c) ->
  exists info,
    getBranchInfo env b tr = (Done info, tr ++ [EvLog b]) /\
    String.prefix (hash info) (c_hash c) = true /\
    String.length (hash info) = Nat.min 7 (String.length (c_hash c)) /\
    message info = c_message c /\ author info = c_author_name c /\
    date info = c_date c.
Proof.
  intros H. eexists. split.
  - unfold getBranchInfo, tryCatch, bind, call. rewrite H. reflexivity.
  - simpl. rewrite substring_0_length, substring_0_prefix. auto.
Qed.

Lemma getBranchInfo_found_witness :
  exists info,
    getBranchInfo sampleEnv "feat" [] = (Done info, [EvLog "feat"]) /\
    String.prefix (hash info) "3f2a9c41d0e7" = true /\
    String.length (hash info) = Nat.min 7 (String.length "3f2a9c41d0e7") /\
    message info = "Add feature" /\ author info = "Ana" /\ date info = "2024-01-01".
Proof.
  exact (getBranchInfo_found sampleEnv "feat" []
           (mkCommit "3f2a9c41d0e7" "Add feature" "Ana" "2024-01-01") eq_refl).
Defined.

(** X8: for a parseable date, [getRelativeDate] classifies the whole days
    elapsed: 0 "today", 1 "yesterday", 2-6 "N days ago", 7-29 weeks,
    30-364 months, 365 and more years (each floor-divided). *)
Lemma getRelativeDate_days_witness :
  getRelativeDate sampleEnv "2024-01-01" = "1 years ago".
Proof.
  destruct (getRelativeDate_days sampleEnv "2024-01-01" 1704067200000%Z eq_refl)
    as (_ & _ & _ & _ & _ & H6).
  rewrite H6; [reflexivity | vm_compute; discriminate].
Defined.

(** X9: a commit date in the future (a negative day count) is not
    special-cased: it reads as a negative number of days, e.g. "-3 days ago". *)
Theorem getRelativeDate_future env s t :
  date_parse env s = Some t ->
  ((now_ms env - t) / 86400000 < 0)%Z ->
  getRelativeDate env s =
    (JS.toString (Some ((now_ms env - t) / 86400000)%Z) ++ " days ago")%string.
Proof.
  intros H Hn. unfold getRelativeDate. rewrite H.
  change (JS.floorDiv (JS.sub (Some (now_ms env)) (Some t)) (1000 * 60 * 60 * 24)%Z)
    with (@Some Z ((now_ms env - t) / 86400000)%Z).
  cbn [JS.eqN JS.ltN].
  destruct (Z.eqb_spec ((now_ms env - t) / 86400000) 0); [lia|].
  destruct (Z.eqb_spec ((now_ms env - t) / 86400000) 1); [lia|].
  destruct (Z.ltb_spec ((now_ms env - t) / 86400000) 7); [reflexivity | lia].
Qed.

Lemma getRelativeDate_future_witness :
  getRelativeDate skewedClockEnv "2025-02-18" = "-3 days ago".
Proof.
  rewrite (getRelativeDate_future skewedClockEnv "2025-02-18" 1739836800000%Z);
    [reflexivity | reflexivity | vm_compute; reflexivity].
Defined.

(** ** Deletion runs *)

Lemma deletionPhase_exact env bs tr :
  (counts <- deleteBranches env bs ;;
   cleanupLocal env ;;;
   remainingCount <- getRemainingBranchCount env ;;
   emit (EvSummary (fst counts) (snd counts) remainingCount)) tr =
  (Done tt, tr ++ map EvPush bs ++
     [EvPrune; EvBranchListAfter;
      EvSummary (List.length (filter (pushOk env) bs))
                (List.length (filter (fun b => negb (pushOk env b)) bs))
                (remainingOf env)]).
Proof.
  unfold deleteBranches. rewrite (bind_done _ _ _ _ _ (deleteLoop_counts env bs 0 0 tr)).
  cbv beta. rewrite (bind_done _ _ _ _ _ (cleanupLocal_trace env _)).
  unfold getRemainingBranchCount, remainingOf, bind, tryCatch, call, emit, ret.
  destruct (branch_after_r env); now rewrite <- !app_assoc.
Qed.

(** X10: once the deletion is confirmed (by [force] or a yes answer), the
    run exits 0 after: the display, the prompt when not forced, one delete
    per candidate in order, the local prune, the remote listing and a
    summary whose counts are the successful and the failed deletes and whose
    remaining count is the number of non-symbolic remote refs, or unknown
    when that listing fails.  A failing prune does not change this. *)
Theorem confirmed_run_summary self env cands :
  dryRun self = false -> cands <> [] -> reachesCandidates self env cands ->
  (force self = true \/ prompt_input env = Some true) ->
  exists evs,
    forallb isDisplay evs = true /\ shownBranches evs = cands /\
    runProgram self env =
      (0%Z, baseTrace ++ evs ++ (if force self then [] else [EvPrompt false]) ++
            map EvPush cands ++
            [EvPrune; EvBranchListAfter;
             EvSummary (List.length (filter (pushOk env) cands))
                       (List.length (filter (fun b => negb (pushOk env b)) cands))
                       (remainingOf env)]).
Proof.
  intros Hd Hne Hr Hc. destruct cands as [|c cs]; [congruence|].
  destruct (displayBranches_done env (c :: cs) baseTrace) as [evs [He [Hq Hs]]].
  exists evs. split; [exact Hq|]. split; [exact Hs|].
  enter_after_display Hr He. rewrite Hd. cbv iota. unfold confirmDeletion.
  destruct (force self) eqn:Hf.
  - rewrite (bind_done _ _ _ _ _ (eq_refl : ret true (baseTrace ++ evs) = _)).
    cbv beta iota. cbn [negb]. rewrite deletionPhase_exact.
    cbv beta iota zeta. now rewrite <- !app_assoc.
  - destruct Hc as [Hc | Hc]; [discriminate|].
    rewrite (bind_done _ _ _ _ _ (promptConfirm_trace env false _)). cbv beta.
    rewrite Hc. cbn [negb]. rewrite deletionPhase_exact.
    cbv beta iota zeta. now rewrite <- !app_assoc.
Qed.

Lemma confirmed_run_summary_witness :
  exists evs,
    forallb isDisplay evs = true /\ shownBranches evs = ["feat"; "fix"] /\
    runProgram (mkPruner "main" false true true) sampleEnv =
      (0%Z, baseTrace ++ evs ++ [] ++ map EvPush ["feat"; "fix"] ++
            [EvPrune; EvBranchListAfter; EvSummary 1 1 (Some 2)]).
Proof.
  exact (confirmed_run_summary (mkPruner "main" false true true) sampleEnv ["feat"; "fix"]
           eq_refl (fun H => ltac:(discriminate H))
           (conj (ex_intro _ true eq_refl)
              (conj eq_refl
                 (conj (ex_intro _ ["origin/HEAD -> origin/main"; "origin/main";
                                    "origin/develop"; "origin/feat"; "origin/fix"]
                          (conj eq_refl (or_intror (or_introl eq_refl))))
                       (ex_intro _ sampleMerged (conj eq_refl eq_refl)))))
           (or_introl eq_refl)).
Defined.

(** ** Deletes issued by a run *)

Lemma bind_pushes {A B} (m : M A) (k : A -> M B) tr b :
  In b (pushedBranches (snd (bind m k tr))) ->
  (exists a tr', m tr = (Done a, tr') /\ In b (pushedBranches (snd (k a tr')))) \/
  In b (pushedBranches (snd (m tr))).
Proof.
  unfold bind. destruct (m tr) as [[a| |c] t]; simpl; eauto.
Qed.

Lemma checkGitRepository_trace env tr :
  exists r, checkGitRepository env tr = (r, tr ++ [EvCheckIsRepo]).
Proof.
  unfold checkGitRepository, tryCatch, bind, call.
  destruct (checkIsRepo_r env); eexists; reflexivity.
Qed.

Lemma checkMainBranch_trace self env tr :
  exists r, checkMainBranch self env tr = (r, tr ++ [EvBranchList]).
Proof.
  unfold checkMainBranch, tryCatch, bind, call.
  destruct (branch_r env); cbv beta iota zeta;
    [destruct (negb _)|]; eexists; reflexivity.
Qed.

Lemma getMergedBranches_trace self env tr :
  exists r, getMergedBranches self env tr = (r, tr ++ [EvMergedQuery]).
Proof.
  unfold getMergedBranches, tryCatch, bind, call.
  destruct (merged_r env); eexists; reflexivity.
Qed.

Lemma afterMerged_pushes self env cands tr b :
  pushedBranches tr = [] ->
  In b (pushedBranches (snd (afterMerged self env cands tr))) -> In b cands.
Proof.
  intros Ht Hin. destruct cands as [|c cs].
  { simpl in Hin. rewrite Ht in Hin. contradiction. }
  destruct (displayBranches_done env (c :: cs) tr) as [evs [He [Hq _]]].
  destruct (display_events_quiet evs Hq) as [_ Hpp].
  unfold afterMerged in Hin. cbv beta iota in Hin.
  rewrite (bind_done _ _ _ _ _ He) in Hin. cbv beta in Hin.
  destruct (dryRun self).
  { cbn in Hin. rewrite pushedBranches_app, Ht, Hpp in Hin. contradiction. }
  unfold confirmDeletion in Hin. destruct (force self).
  - rewrite (bind_done _ _ _ _ _ (eq_refl : ret true (tr ++ evs) = _)) in Hin.
    cbv beta iota in Hin. cbn [negb] in Hin. rewrite deletionPhase_exact in Hin.
    cbn [snd] in Hin. rewrite !pushedBranches_app, Ht, Hpp, pushedBranches_pushes in Hin.
    simpl in Hin. rewrite app_nil_r in Hin. exact Hin.
  - rewrite (bind_done _ _ _ _ _ (promptConfirm_trace env false _)) in Hin.
    cbv beta in Hin.
    destruct (match prompt_input env with Some b => b | None => false end); cbn [negb] in Hin.
    + rewrite deletionPhase_exact in Hin.
      cbn [snd] in Hin. rewrite !pushedBranches_app, Ht, Hpp, pushedBranches_pushes in Hin.
      simpl in Hin. rewrite app_nil_r in Hin. exact Hin.
    + cbn in Hin. rewrite !pushedBranches_app, Ht, Hpp in Hin. simpl in Hin. contradiction.
Qed.

Ltac step_pushes Hin L :=
  let a := fresh "a" in let t := fresh "t" in let Hs := fresh "Hs" in
  let r := fresh "r" in let E := fresh "E" in
  apply bind_pushes in Hin as [(a & t & Hs & Hin) | Hin];
  [ destruct L as [r E]; rewrite E in Hs; injection Hs as _ <-; clear E; cbv beta in Hin
  | destruct L as [r E]; rewrite E in Hin; simpl in Hin; contradiction ].

(** X11: every delete a run issues is for a candidate computed by
    [getMergedBranches]; in particular no run ever deletes the main
    branch, ["HEAD"], or ["develop"] when [keepDevelop] is set. *)
Theorem run_deletes_only_candidates self env b :
  In b (pushedBranches (snd (runProgram self env))) ->
  (exists all, merged_r env = Ok all /\ In b (mergedFilter self all)) /\
  b <> mainBranch self /\ b <> "HEAD" /\ (keepDevelop self = true -> b <> "develop").
Proof.
  intros Hin. unfold runProgram in Hin.
  pose proof (run_trace self env []) as Ht.
  destruct (run self env []) as [r tr]. simpl in Ht, Hin. rewrite Ht in Hin. clear Ht.
  unfold runBody in Hin.
  step_pushes Hin (checkGitRepository_trace env []).
  step_pushes Hin (fetchLatest_trace env [EvCheckIsRepo]).
  step_pushes Hin (checkMainBranch_trace self env [EvCheckIsRepo; EvFetch]).
  apply bind_pushes in Hin as [(cands & t & Hs & Hin) | Hin].
  - destruct (getMergedBranches_inv _ _ _ _ _ Hs) as [all [Hm ->]].
    destruct (getMergedBranches_trace self env
                [EvCheckIsRepo; EvFetch; EvBranchList]) as [r' E].
    rewrite E in Hs. injection Hs as _ <-. cbv beta in Hin.
    apply afterMerged_pushes in Hin; [|reflexivity].
    split; [exists all; split; assumption|].
    apply keepFilter_In in Hin. tauto.
  - destruct (getMergedBranches_trace self env
                [EvCheckIsRepo; EvFetch; EvBranchList]) as [r' E].
    rewrite E in Hin. simpl in Hin. contradiction.
Qed.

Lemma run_deletes_only_candidates_witness :
  (exists all, merged_r sampleEnv = Ok all /\ In "fix" (mergedFilter (mkPruner "main" false true true) all)) /\
  "fix" <> "main" /\ "fix" <> "HEAD" /\ (true = true -> "fix" <> "develop").
Proof.
  apply (run_deletes_only_candidates (mkPruner "main" false true true) sampleEnv "fix").
  vm_compute. tauto.
Defined.

(** ** Display and dry runs in every environment *)

Lemma displayBranches_logged env bs tr :
  exists evs, displayBranches env bs tr = (Done tt, tr ++ evs) /\
              loggedBranches evs = bs.
Proof.
  revert tr. induction bs as [|b bs IH]; intros tr; simpl.
  - exists []. now rewrite app_nil_r.
  - destruct (getBranchInfo_done env b tr) as [info Hi].
    rewrite (bind_done _ _ _ _ _ Hi). cbv beta zeta. rewrite bind_emit.
    destruct (IH ((tr ++ [EvLog b]) ++ [EvShow b (hash info) (message info)
                   (author info) (getRelativeDate env (date info))]))
      as [evs [He Hl]].
    eexists. rewrite He. split; [now rewrite <- !app_assoc|].
    simpl. now rewrite Hl.
Qed.

(** X12: [displayBranches] always completes, whatever the commit lookups
    return; it looks up each branch once and shows each branch, both in
    list order, and does nothing else. *)
Theorem displayBranches_each_once env bs tr :
  exists evs, displayBranches env bs tr = (Done tt, tr ++ evs) /\
              forallb isDisplay evs = true /\
              loggedBranches evs = bs /\ shownBranches evs = bs.
Proof.
  destruct (displayBranches_done env bs tr) as [evs [He [Hq Hs]]].
  destruct (displayBranches_logged env bs tr) as [evs' [He' Hl]].
  rewrite He in He'. injection He' as He'. apply app_inv_head in He'. subst evs'.
  exists evs. auto.
Qed.

Lemma bind_in {A B} (m : M A) (k : A -> M B) tr e :
  In e (snd (bind m k tr)) ->
  (exists a tr', m tr = (Done a, tr') /\ In e (snd (k a tr'))) \/ In e (snd (m tr)).
Proof.
  unfold bind. destruct (m tr) as [[a| |c] t]; simpl; eauto.
Qed.

Ltac step_in Hin Hmut L :=
  let a := fresh "a" in let t := fresh "t" in let Hs := fresh "Hs" in
  let r := fresh "r" in let E := fresh "E" in
  apply bind_in in Hin as [(a & t & Hs & Hin) | Hin];
  [ destruct L as [r E]; rewrite E in Hs; injection Hs as _ <-; clear E; cbv beta in Hin
  | destruct L as [r E]; rewrite E in Hin; simpl in Hin;
    repeat (destruct Hin as [<- | Hin]; [discriminate Hmut|]); contradiction ].

(** X13: a dry run, in any environment (failing calls included), never
    prompts, never deletes a branch and never prunes. *)
Theorem dryRun_never_mutates self env e :
  dryRun self = true -> In e (snd (runProgram self env)) -> isMutation e = false.
Proof.
  intros Hd Hin. destruct (isMutation e) eqn:Hmut; [exfalso|reflexivity].
  unfold runProgram in Hin.
  pose proof (run_trace self env []) as Ht.
  destruct (run self env []) as [r tr]. simpl in Ht, Hin. rewrite Ht in Hin. clear Ht.
  unfold runBody in Hin.
  step_in Hin Hmut (checkGitRepository_trace env []).
  step_in Hin Hmut (fetchLatest_trace env [EvCheckIsRepo]).
  step_in Hin Hmut (checkMainBranch_trace self env [EvCheckIsRepo; EvFetch]).
  step_in Hin Hmut (getMergedBranches_trace self env [EvCheckIsRepo; EvFetch; EvBranchList]).
  destruct a2 as [|c cs].
  - simpl in Hin. repeat (destruct Hin as [<- | Hin]; [discriminate Hmut|]). contradiction.
  - destruct (displayBranches_done env (c :: cs) baseTrace) as [evs [He [Hq _]]].
    unfold afterMerged in Hin. cbv beta iota in Hin.
    change [EvCheckIsRepo; EvFetch; EvBranchList; EvMergedQuery] with baseTrace in Hin.
    rewrite (bind_done _ _ _ _ _ He) in Hin. cbv beta in Hin. rewrite Hd in Hin.
    cbn in Hin. repeat (destruct Hin as [<- | Hin]; [discriminate Hmut|]).
    rewrite forallb_forall in Hq. specialize (Hq e Hin).
    destruct e; discriminate.
Qed.

Lemma dryRun_never_mutates_witness :
  isMutation (EvLog "feat") = false.
Proof.
  apply (dryRun_never_mutates (mkPruner "main" true false true) sampleEnv (EvLog "feat")).
  - reflexivity.
  - vm_compute. tauto.
Defined.
